(** * ReportsService: aggregate statistics over one user's tasks

    A shallow embedding of [src/reports/reports.service.ts] and of the parts
    of its collaborators that the service calls: the Sequelize models
    ([findOne], [findAndCountAll], [count], [findAll] with the [where]
    objects the service builds), moment's [diff(..., 'days')] and
    [format('YYYY-MM-DD')], and the JavaScript operators the service applies
    to the results ([/], [Math.floor], [||], [Object.entries]).

    Conventions.
    - Timestamps are milliseconds since the epoch, as [Z].
    - A query is evaluated on one snapshot of the tables; rows come back in
      table order.  Rejections of the data layer are not part of the model:
      every operation below is a total function of the snapshot.
    - Counts are exact integers ([Z]); the quotient of [getAvgTasksPerDay]
      is an exact rational, which is what the double-precision quotient of
      two integers below 2^53 floors to. *)

From Stdlib Require Import ZArith QArith Qround String Ascii List Bool Lia.
From Stdlib Require Import DecimalString Permutation.
Import ListNotations.

Open Scope Z_scope.

(** ** Data model *)

Module User.
Record t := mk { id : Z; createdAt : Z }.
End User.

Module TodoList.
Record t := mk { id : Z; userId : Z }.
End TodoList.

Module Task.
Record t := mk {
  todoListId : Z;
  completionStatus : bool;
  completionDateTime : option Z;   (* nullable column *)
  dueDateTime : Z
}.
End Task.

(** The two tables the service reads. *)
Record DataStore := {
  todoListTable : list TodoList.t;
  taskTable : list Task.t
}.

(** ** Sequelize: the queries the service issues *)

Module Sequelize.

(** The attributes that occur in the [where] objects of the service.  A
    [where] object is the conjunction of its attributes. *)
Inductive WhereAttribute :=
| todoListId (id : Z)
| completionStatus (b : bool)
| completionDateTime_gt_col_dueDateTime.   (* { [Op.gt]: Sequelize.col('dueDateTime') } *)

Definition WhereOptions := list WhereAttribute.

(** SQL comparison with a NULL operand is not true. *)
Definition satisfies (row : Task.t) (a : WhereAttribute) : bool :=
  match a with
  | todoListId id => Task.todoListId row =? id
  | completionStatus b => Bool.eqb (Task.completionStatus row) b
  | completionDateTime_gt_col_dueDateTime =>
      match Task.completionDateTime row with
      | Some c => Task.dueDateTime row <? c
      | None => false
      end
  end.

Definition selected (where_ : WhereOptions) (row : Task.t) : bool :=
  forallb (satisfies row) where_.

Definition findAll (db : DataStore) (where_ : WhereOptions) : list Task.t :=
  filter (selected where_) (taskTable db).

Definition count (db : DataStore) (where_ : WhereOptions) : Z :=
  Z.of_nat (length (filter (selected where_) (taskTable db))).

Record FindAndCountAll := { count_ : Z; rows : list Task.t }.

Definition findAndCountAll (db : DataStore) (where_ : WhereOptions)
  : FindAndCountAll :=
  {| count_ := count db where_; rows := findAll db where_ |}.

(** [todoListModel.findOne({ where: { userId } })]: the first row, or null. *)
Definition findOne (db : DataStore) (userId : Z) : option TodoList.t :=
  find (fun l => TodoList.userId l =? userId) (todoListTable db).

End Sequelize.

(** ** JavaScript numbers produced by a division *)

Inductive number :=
| Num (q : Q)
| Infinity
| NegInfinity
| NaN.

Definition isFinite (x : number) : bool :=
  match x with Num _ => true | _ => false end.

(** [a / b] on two integer-valued numbers. *)
Definition js_div (a b : Z) : number :=
  if b =? 0 then
    if a =? 0 then NaN else if 0 <? a then Infinity else NegInfinity
  else Num (inject_Z a / inject_Z b).

Definition Math_floor (x : number) : number :=
  match x with
  | Num q => Num (inject_Z (Qfloor q))
  | other => other
  end.

(** ** moment *)

(** What moment reads from its surroundings: the current instant and the
    local zone's offset from UTC, in minutes, at a given instant. *)
Record Clock := {
  now : Z;
  utcOffset : Z -> Z
}.

Module Moment.

(** [zoneDelta = (that.utcOffset() - this.utcOffset()) * 6e4] *)
Definition zoneDelta (clk : Clock) (that : Z) : Z :=
  (utcOffset clk that - utcOffset clk (now clk)) * 60000.

(** [moment().diff(that, 'days')]: [absFloor((this - that - zoneDelta) / 864e5)];
    [absFloor] rounds toward zero. *)
Definition diff_days (clk : Clock) (that : Z) : Z :=
  Z.quot (now clk - that - zoneDelta clk that) 86400000.

End Moment.

(** ** ReportsService *)

Record ITasksCount := {
  totalTasks : Z;
  completedTasks : Z;
  remainingTasks : Z
}.

Definition getTodoListByUser (db : DataStore) (userId : Z) : option TodoList.t :=
  Sequelize.findOne db userId.

Definition getTaskCount (db : DataStore) (user : User.t) : ITasksCount :=
  match getTodoListByUser db (User.id user) with
  | None => {| totalTasks := 0; completedTasks := 0; remainingTasks := 0 |}
  | Some todolist =>
      let totalTasks_ :=
        Sequelize.findAndCountAll db [Sequelize.todoListId (TodoList.id todolist)] in
      let completedTasks_ :=
        Z.of_nat (length (filter Task.completionStatus (Sequelize.rows totalTasks_))) in
      let remainingTasks_ := Sequelize.count_ totalTasks_ - completedTasks_ in
      {| totalTasks := Sequelize.count_ totalTasks_;
         completedTasks := completedTasks_;
         remainingTasks := remainingTasks_ |}
  end.

Definition getAvgTasksPerDay (clk : Clock) (db : DataStore) (user : User.t) : number :=
  match getTodoListByUser db (User.id user) with
  | None => Num 0
  | Some todolist =>
      let daysSinceAccountCreation := Moment.diff_days clk (User.createdAt user) in
      if daysSinceAccountCreation =? 0 then Num 0
      else
        let completedTasks_ :=
          Sequelize.count db [Sequelize.todoListId (TodoList.id todolist);
                              Sequelize.completionStatus true] in
        Math_floor (js_div completedTasks_ daysSinceAccountCreation)
  end.

Definition getTasksNotCompletedOnTime (db : DataStore) (user : User.t) : Z :=
  match getTodoListByUser db (User.id user) with
  | None => 0
  | Some todolist =>
      Sequelize.count db [Sequelize.todoListId (TodoList.id todolist);
                          Sequelize.completionStatus true;
                          Sequelize.completionDateTime_gt_col_dueDateTime]
  end.

(** ** Calendar fields of a JavaScript [Date] *)

Module JSDate.

Definition msPerDay : Z := 86400000.

(** [Day(t) = floor(t / msPerDay)] *)
Definition Day (t : Z) : Z := t / msPerDay.

Record Fields := { fullYear : Z; month : Z (* 0..11 *); date : Z (* 1..31 *) }.

(** Proleptic Gregorian calendar date of a day number counted from
    1970-01-01, by 400-year eras that start on 1 March. *)
Definition fieldsOfDay (day : Z) : Fields :=
  let z := day + 719468 in
  let era := z / 146097 in
  let doe := z - era * 146097 in
  let yoe := (doe - doe / 1460 + doe / 36524 - doe / 146096) / 365 in
  let doy := doe - (365 * yoe + yoe / 4 - yoe / 100) in
  let mp := (5 * doy + 2) / 153 in
  let d := doy - (153 * mp + 2) / 5 + 1 in
  let m := if mp <? 10 then mp + 3 else mp - 9 in
  let y := yoe + era * 400 + (if m <=? 2 then 1 else 0) in
  {| fullYear := y; month := m - 1; date := d |}.

(** The local-time getters: [LocalTime(t) = t + LocalTZA(t)]. *)
Definition localFields (clk : Clock) (t : Z) : Fields :=
  fieldsOfDay (Day (t + utcOffset clk t * 60000)).

End JSDate.

(** ** Strings of decimal digits *)

Definition toString (n : Z) : string :=
  NilZero.string_of_uint (N.to_uint (Z.to_N n)).

Definition isDigit (c : ascii) : bool :=
  ((48 <=? N_of_ascii c) && (N_of_ascii c <=? 57))%N.

Fixpoint allDigits (s : string) : bool :=
  match s with
  | EmptyString => true
  | String c rest => isDigit c && allDigits rest
  end.

Fixpoint decimalValue (acc : Z) (s : string) : Z :=
  match s with
  | EmptyString => acc
  | String c rest => decimalValue (10 * acc + (Z.of_N (N_of_ascii c) - 48)) rest
  end.

Fixpoint zeros (n : nat) : string :=
  match n with
  | O => EmptyString
  | S n' => String "0" (zeros n')
  end.

Module MomentFormat.

(** [zeroFill(number, targetLength)] with [forceSign] absent. *)
Definition zeroFill (number targetLength : Z) : string :=
  let absNumber := toString (Z.abs number) in
  let zerosToFill := targetLength - Z.of_nat (String.length absNumber) in
  ((if (0 <=? number)%Z then "" else "-")
     ++ zeros (Z.to_nat (Z.max 0 zerosToFill)%Z) ++ absNumber)%string.

(** [moment(input).format('YYYY-MM-DD')]; [moment(null)] is invalid and
    formats as the locale's invalid-date text. *)
Definition format_YYYY_MM_DD (clk : Clock) (input : option Z) : string :=
  match input with
  | None => "Invalid date"
  | Some t =>
      let f := JSDate.localFields clk t in
      (zeroFill (JSDate.fullYear f) 4 ++ "-"
         ++ zeroFill (JSDate.month f + 1)%Z 2 ++ "-"
         ++ zeroFill (JSDate.date f) 2)%string
  end.

End MomentFormat.

(** The shape [YYYY-MM-DD]: four digits, two digits, two digits, separated
    by hyphens. *)
Definition is_YYYY_MM_DD (s : string) : bool :=
  match list_ascii_of_string s with
  | [y1; y2; y3; y4; h1; m1; m2; h2; d1; d2] =>
      isDigit y1 && isDigit y2 && isDigit y3 && isDigit y4
      && Ascii.eqb h1 "-" && isDigit m1 && isDigit m2
      && Ascii.eqb h2 "-" && isDigit d1 && isDigit d2
  | _ => false
  end.

(** ** A JavaScript object used as a map from strings to counts *)

Module JsObject.

(** Own properties in the order of their creation. *)
Definition t := list (string * Z).

Fixpoint get (o : t) (k : string) : option Z :=
  match o with
  | [] => None
  | (k', v) :: rest => if String.eqb k' k then Some v else get rest k
  end.

(** [o[k] = v]: an existing property keeps its place, a new one goes last. *)
Fixpoint set (o : t) (k : string) (v : Z) : t :=
  match o with
  | [] => [(k, v)]
  | (k', v') :: rest =>
      if String.eqb k' k then (k', v) :: rest else (k', v') :: set rest k v
  end.

Definition keys (o : t) : list string := map fst o.

(** [x || 0] on a property read: undefined and 0 are falsy. *)
Definition or_zero (x : option Z) : Z :=
  match x with
  | Some v => if v =? 0 then 0 else v
  | None => 0
  end.

(** A key is an array index when it is the canonical decimal text of an
    integer below 2^32 - 1. *)
Definition isArrayIndex (k : string) : bool :=
  match k with
  | EmptyString => false
  | String c rest =>
      allDigits k
      && (negb (Ascii.eqb c "0") || String.eqb rest "")
      && (decimalValue 0 k <? 4294967295)
  end.

Fixpoint insertIndexed (e : string * Z) (sorted : t) : t :=
  match sorted with
  | [] => [e]
  | e' :: rest =>
      if decimalValue 0 (fst e) <=? decimalValue 0 (fst e')
      then e :: sorted
      else e' :: insertIndexed e rest
  end.

(** [Object.entries(o)]: array-index keys in ascending numeric order, then
    the other string keys in the order of their creation. *)
Definition entries (o : t) : list (string * Z) :=
  fold_right insertIndexed [] (filter (fun e => isArrayIndex (fst e)) o)
    ++ filter (fun e => negb (isArrayIndex (fst e))) o.

End JsObject.

(** ** ReportsService, continued *)

(** The callback of [tasks.reduce]; a row carries only the selected
    attribute [completionDateTime]. *)
Definition groupStep (clk : Clock) (grouped : JsObject.t) (task : option Z)
  : JsObject.t :=
  let date := MomentFormat.format_YYYY_MM_DD clk task in
  JsObject.set grouped date (JsObject.or_zero (JsObject.get grouped date) + 1).

(** The body of the [for ... of] loop on the state [(maxDate, maxCount)]. *)
Definition maxStep (st : option string * Z) (entry : string * Z)
  : option string * Z :=
  let '(maxDate, maxCount) := st in
  let '(date, count) := entry in
  if count >? maxCount then (Some date, count) else (maxDate, maxCount).

Definition getDateWithMostCompletedTasks
  (clk : Clock) (db : DataStore) (user : User.t) : option string :=
  match getTodoListByUser db (User.id user) with
  | None => None
  | Some todolist =>
      let tasks :=
        map Task.completionDateTime
          (Sequelize.findAll db [Sequelize.todoListId (TodoList.id todolist);
                                 Sequelize.completionStatus true]) in
      let tasksByDate := fold_left (groupStep clk) tasks [] in
      fst (fold_left maxStep (JsObject.entries tasksByDate) (None, 0))
  end.

(** ** Vocabulary of the specification *)

(** The tasks under a list: the rows whose foreign key is the list's id. *)
Definition tasksUnder (db : DataStore) (todolist : TodoList.t) : list Task.t :=
  filter (fun t => Task.todoListId t =? TodoList.id todolist) (taskTable db).

Definition completedUnder (db : DataStore) (todolist : TodoList.t) : list Task.t :=
  filter Task.completionStatus (tasksUnder db todolist).

Definition completedCount (db : DataStore) (todolist : TodoList.t) : Z :=
  Z.of_nat (length (completedUnder db todolist)).

(** Completed after the deadline: [completionDateTime > dueDateTime]. *)
Definition completedLate (t : Task.t) : bool :=
  Task.completionStatus t &&
  match Task.completionDateTime t with
  | Some c => Task.dueDateTime t <? c
  | None => false
  end.

(** The date portions of the completions under a list, in row order. *)
Definition completionDates (clk : Clock) (db : DataStore) (todolist : TodoList.t)
  : list string :=
  map (fun t => MomentFormat.format_YYYY_MM_DD clk (Task.completionDateTime t))
      (completedUnder db todolist).

(** How many completions fall on a date. *)
Definition completionsOn (d : string) (dates : list string) : Z :=
  Z.of_nat (count_occ string_dec dates d).

(** A completion instant whose local calendar year has four digits. *)
Definition fourDigitYear (clk : Clock) (c : option Z) : bool :=
  match c with
  | Some t =>
      let y := JSDate.fullYear (JSDate.localFields clk t) in
      (0 <=? y) && (y <=? 9999)
  | None => false
  end.

(** The effect of one completion on the grouping object, by its date. *)
Definition bump (grouped : JsObject.t) (date : string) : JsObject.t :=
  JsObject.set grouped date (JsObject.or_zero (JsObject.get grouped date) + 1).

(** A string of exactly [n] decimal digits. *)
Definition hasDigits (n : nat) (s : string) : bool :=
  Nat.eqb (String.length s) n && allDigits s.

(** [p] holds of 0, 1, ..., n - 1. *)
Fixpoint allBelow (n : nat) (p : Z -> bool) : bool :=
  match n with
  | O => true
  | S m => p (Z.of_nat m) && allBelow m p
  end.

(** The same store with another task table. *)
Definition withTasks (db : DataStore) (tasks : list Task.t) : DataStore :=
  {| todoListTable := todoListTable db; taskTable := tasks |}.

(** ** Sample data *)

Module Sample.

Definition utc (n : Z) : Clock := {| now := n; utcOffset := fun _ => 0 |}.

Definition day : Z := 86400000.
Definition jan1 : Z := 1704067200000.   (* 2024-01-01T00:00:00Z *)
Definition jan2 : Z := jan1 + day.

Definition alice : User.t := User.mk 1 jan1.
Definition bob : User.t := User.mk 2 jan1.

Definition done (list_ c due : Z) : Task.t := Task.mk list_ true (Some c) due.
Definition pending (list_ due : Z) : Task.t := Task.mk list_ false None due.

(** Alice owns list 10; Bob has no list.  List 11 belongs to user 3. *)
Definition lists : list TodoList.t := [TodoList.mk 11 3; TodoList.mk 10 1].

Definition store : DataStore :=
  {| todoListTable := lists;
     taskTable :=
       [ done 10 (jan1 + 1000) (jan1 + 5000);       (* on time *)
         pending 10 (jan1 - day);                   (* overdue, not completed *)
         done 11 (jan2 + 7) jan1;                   (* another list *)
         done 10 (jan2 + 5000) jan2;                (* late *)
         done 10 (jan2 + 6000) (jan2 + 6000) ] |}.  (* exactly on the deadline *)

(** Seven completions on Alice's list. *)
Definition sevenDone : DataStore :=
  {| todoListTable := lists;
     taskTable := repeat (done 10 (jan1 + 1) jan2) 7 |}.

(** Only pending tasks on Alice's list. *)
Definition onlyPending : DataStore :=
  {| todoListTable := lists;
     taskTable := [pending 10 jan1; pending 10 jan2; done 11 jan1 jan2] |}.

(** Two completions on each of two dates, in both row orders. *)
Definition tie12 : DataStore :=
  {| todoListTable := lists;
     taskTable := [done 10 jan1 jan2; done 10 jan2 jan2;
                   done 10 (jan2 + 1) jan2; done 10 (jan1 + 1) jan2] |}.

Definition tie21 : DataStore :=
  {| todoListTable := lists;
     taskTable := [done 10 jan2 jan2; done 10 jan1 jan2;
                   done 10 (jan2 + 1) jan2; done 10 (jan1 + 1) jan2] |}.

(** A row marked completed whose completion instant is null. *)
Definition completedWithoutInstant : DataStore :=
  {| todoListTable := lists;
     taskTable := [Task.mk 10 true None jan1] |}.

(** Five completions on Alice's list, two of them late, three on
    2024-01-02 and two on 2024-01-01, and one pending task. *)
Definition fiveDone : DataStore :=
  {| todoListTable := lists;
     taskTable := [done 10 (jan1 + 10) jan2; done 10 (jan2 + 10) jan1;
                   done 10 (jan2 + 20) (jan2 + 30); pending 10 jan1;
                   done 10 (jan1 + 40) jan1; done 10 (jan2 + 50) (jan2 + 50)] |}.

End Sample.

(** ** Further vocabulary *)

(** The sum of the counts held by a grouping object. *)
Definition sumOfCounts (o : JsObject.t) : Z :=
  fold_right (fun e acc => snd e + acc) 0 o.

(** The milliseconds from an instant to now, as [diff] measures them. *)
Definition elapsedMs (clk : Clock) (that : Z) : Z :=
  now clk - that - Moment.zoneDelta clk that.

(** The local calendar day of an instant, as a day number. *)
Definition localDay (clk : Clock) (t : Z) : Z :=
  JSDate.Day (t + utcOffset clk t * 60000).

(** The day number of calendar fields: the way back from
    [JSDate.fieldsOfDay]. *)
Definition dayOfFields (f : JSDate.Fields) : Z :=
  let m := JSDate.month f + 1 in
  let y := JSDate.fullYear f - (if m <=? 2 then 1 else 0) in
  let era := y / 400 in
  let yoe := y - era * 400 in
  let doy := (153 * (if 2 <? m then m - 3 else m + 9) + 2) / 5 + JSDate.date f - 1 in
  let doe := yoe * 365 + yoe / 4 - yoe / 100 + doy in
  era * 146097 + doe - 719468.

(** How many of the rows were completed on the local day of instant [c]. *)
Definition completedOnDayOf (clk : Clock) (rows : list Task.t) (c : Z) : Z :=
  Z.of_nat (length (filter (fun t =>
                              match Task.completionDateTime t with
                              | Some c' => localDay clk c' =? localDay clk c
                              | None => false
                              end) rows)).

Module MoreSamples.

(** An account created eighteen hours after now. *)
Definition carol : User.t := User.mk 1 (Sample.jan1 + 64800000).

(** Alice's list exists and holds no task; list 11 has one. *)
Definition emptyList : DataStore :=
  {| todoListTable := Sample.lists;
     taskTable := [Sample.done 11 Sample.jan1 Sample.jan2] |}.

(** [Sample.store] with the rows in another order. *)
Definition shuffled : list Task.t :=
  [ Sample.done 10 (Sample.jan2 + 6000) (Sample.jan2 + 6000);
    Sample.done 10 (Sample.jan2 + 5000) Sample.jan2;
    Sample.done 11 (Sample.jan2 + 7) Sample.jan1;
    Sample.pending 10 (Sample.jan1 - Sample.day);
    Sample.done 10 (Sample.jan1 + 1000) (Sample.jan1 + 5000) ].

(** [Sample.store] with other rows for list 11. *)
Definition otherLists : DataStore :=
  {| todoListTable := Sample.lists;
     taskTable :=
       [ Sample.pending 11 Sample.jan1;
         Sample.done 10 (Sample.jan1 + 1000) (Sample.jan1 + 5000);
         Sample.pending 10 (Sample.jan1 - Sample.day);
         Sample.done 10 (Sample.jan2 + 5000) Sample.jan2;
         Sample.done 11 (Sample.jan1 + 9) Sample.jan1;
         Sample.done 10 (Sample.jan2 + 6000) (Sample.jan2 + 6000) ] |}.

End MoreSamples.

(** * Properties *)

(** ** The queries select the tasks the specification names *)

Lemma filter_and {A} (f g : A -> bool) (l : list A) :
  filter (fun x => f x && g x) l = filter g (filter f l).
Proof.
  induction l as [|x l IH]; simpl; [reflexivity|].
  destruct (f x); simpl; [destruct (g x)|]; now rewrite IH.
Qed.

Lemma eqb_true_r (b : bool) : Bool.eqb b true = b.
Proof. now destruct b. Qed.

Lemma findAll_todoListId db todolist :
  Sequelize.findAll db [Sequelize.todoListId (TodoList.id todolist)]
  = tasksUnder db todolist.
Proof.
  unfold Sequelize.findAll, tasksUnder. apply filter_ext. intro t.
  unfold Sequelize.selected. simpl. apply andb_true_r.
Qed.

Lemma findAll_completed db todolist :
  Sequelize.findAll db [Sequelize.todoListId (TodoList.id todolist);
                        Sequelize.completionStatus true]
  = completedUnder db todolist.
Proof.
  unfold Sequelize.findAll, completedUnder, tasksUnder.
  rewrite <- filter_and. apply filter_ext. intro t.
  unfold Sequelize.selected. simpl. now rewrite andb_true_r, eqb_true_r.
Qed.

Lemma findAll_completedLate db todolist :
  Sequelize.findAll db [Sequelize.todoListId (TodoList.id todolist);
                        Sequelize.completionStatus true;
                        Sequelize.completionDateTime_gt_col_dueDateTime]
  = filter completedLate (tasksUnder db todolist).
Proof.
  unfold Sequelize.findAll, tasksUnder.
  rewrite <- filter_and. apply filter_ext. intro t.
  unfold Sequelize.selected, completedLate. simpl.
  now rewrite andb_true_r, eqb_true_r.
Qed.

Lemma count_findAll db w :
  Sequelize.count db w = Z.of_nat (length (Sequelize.findAll db w)).
Proof. reflexivity. Qed.

Lemma filter_length_le {A} (f : A -> bool) (l : list A) :
  (length (filter f l) <= length l)%nat.
Proof.
  induction l as [|x l IH]; simpl; [lia|]. destruct (f x); simpl; lia.
Qed.



(** ** getTaskCount *)

(** C1: for a user whose list has N tasks of which K are completed,
    [getTaskCount] returns [{ totalTasks: N, completedTasks: K,
    remainingTasks: N - K }], and K is at most N. *)
Theorem getTaskCount_N_K db user todolist (N K : nat) :
  getTodoListByUser db (User.id user) = Some todolist ->
  length (tasksUnder db todolist) = N ->
  length (filter Task.completionStatus (tasksUnder db todolist)) = K ->
  getTaskCount db user
  = {| totalTasks := Z.of_nat N;
       completedTasks := Z.of_nat K;
       remainingTasks := Z.of_nat N - Z.of_nat K |}
  /\ (K <= N)%nat.
Proof.
  intros Hl HN HK. split.
  - unfold getTaskCount. rewrite Hl. cbn [Sequelize.findAndCountAll
      Sequelize.count_ Sequelize.rows].
    rewrite count_findAll, findAll_todoListId, HN, HK. reflexivity.
  - subst N K. apply filter_length_le.
Qed.

Lemma getTaskCount_N_K_witness :
  getTaskCount Sample.store Sample.alice
  = {| totalTasks := 4; completedTasks := 3; remainingTasks := 4 - 3 |}
  /\ (3 <= 4)%nat.
Proof.
  apply (getTaskCount_N_K Sample.store Sample.alice (TodoList.mk 10 1) 4 3);
    reflexivity.
Defined.

(** C9: in every state of the store the record of [getTaskCount] satisfies
    [completedTasks + remainingTasks = totalTasks] and
    [0 <= completedTasks <= totalTasks], hence [0 <= remainingTasks]. *)
Theorem getTaskCount_invariant db user :
  let r := getTaskCount db user in
  completedTasks r + remainingTasks r = totalTasks r
  /\ 0 <= completedTasks r <= totalTasks r
  /\ 0 <= remainingTasks r.
Proof.
  unfold getTaskCount.
  destruct (getTodoListByUser db (User.id user)) as [todolist|]; cbn.
  - rewrite count_findAll.
    pose proof (filter_length_le Task.completionStatus
                  (Sequelize.findAll db [Sequelize.todoListId (TodoList.id todolist)])).
    lia.
  - lia.
Qed.

(** ** getTasksNotCompletedOnTime *)

Lemma getTodoListByUser_withTasks db tasks userId :
  getTodoListByUser (withTasks db tasks) userId = getTodoListByUser db userId.
Proof. reflexivity. Qed.

(** C5: [getTasksNotCompletedOnTime] is the number of tasks under the list
    that are completed with [completionDateTime > dueDateTime]; a task that
    is not completed, or completed at or before its deadline, does not
    contribute: the result is the same without that row. *)
Theorem getTasksNotCompletedOnTime_counts_late db user todolist :
  getTodoListByUser db (User.id user) = Some todolist ->
  getTasksNotCompletedOnTime db user
  = Z.of_nat (length (filter completedLate (tasksUnder db todolist)))
  /\ (forall t, completedLate t = true <->
                Task.completionStatus t = true /\
                exists c, Task.completionDateTime t = Some c /\ Task.dueDateTime t < c)
  /\ (forall before t after,
        taskTable db = before ++ t :: after ->
        Task.completionStatus t = false \/
        (exists c, Task.completionDateTime t = Some c /\ c <= Task.dueDateTime t) ->
        getTasksNotCompletedOnTime db user
        = getTasksNotCompletedOnTime (withTasks db (before ++ after)) user).
Proof.
  intro Hl.
  assert (Hcount : forall db', todoListTable db' = todoListTable db ->
            getTasksNotCompletedOnTime db' user
            = Z.of_nat (length (filter completedLate (tasksUnder db' todolist)))).
  { intros db' Heq. unfold getTasksNotCompletedOnTime.
    replace (getTodoListByUser db' (User.id user)) with (Some todolist)
      by (rewrite <- Hl; unfold getTodoListByUser, Sequelize.findOne; now rewrite Heq).
    now rewrite count_findAll, findAll_completedLate. }
  split; [now apply Hcount|]. split.
  - intro t. unfold completedLate. split.
    + intro H. apply andb_true_iff in H. destruct H as [Hs Hc]. split; [exact Hs|].
      destruct (Task.completionDateTime t) as [c|]; [|discriminate].
      exists c. split; [reflexivity|]. now apply Z.ltb_lt.
    + intros [Hs [c [Hc Hlt]]]. rewrite Hs, Hc. now apply Z.ltb_lt.
  - intros before t after Htab Hnot.
    rewrite (Hcount db eq_refl), (Hcount (withTasks db (before ++ after)) eq_refl).
    unfold tasksUnder. cbn [withTasks taskTable]. rewrite Htab.
    rewrite !filter_app. cbn [filter].
    assert (Hno : completedLate t = false).
    { unfold completedLate. destruct Hnot as [Hs | [c [Hc Hle]]].
      - now rewrite Hs.
      - rewrite Hc. apply andb_false_iff. right. now apply Z.ltb_ge. }
    destruct (Task.todoListId t =? TodoList.id todolist); [|reflexivity].
    cbn [filter]. now rewrite Hno.
Qed.

Lemma getTasksNotCompletedOnTime_counts_late_witness :
  getTodoListByUser Sample.store (User.id Sample.alice) = Some (TodoList.mk 10 1)
  /\ getTasksNotCompletedOnTime Sample.store Sample.alice = 1.
Proof.
  split; [reflexivity|].
  exact (proj1 (getTasksNotCompletedOnTime_counts_late
                  Sample.store Sample.alice (TodoList.mk 10 1) eq_refl)).
Defined.

(** ** getAvgTasksPerDay *)

Lemma Math_floor_js_div (a b : Z) :
  b <> 0 -> Math_floor (js_div a b) = Num (inject_Z (a / b)).
Proof.
  intro Hb. unfold js_div. apply Z.eqb_neq in Hb. rewrite Hb.
  cbn [Math_floor]. now rewrite <- Zdiv_Qdiv.
Qed.

Lemma getAvgTasksPerDay_quotient clk db user todolist :
  getTodoListByUser db (User.id user) = Some todolist ->
  Moment.diff_days clk (User.createdAt user) <> 0 ->
  getAvgTasksPerDay clk db user
  = Num (inject_Z (completedCount db todolist
                   / Moment.diff_days clk (User.createdAt user))).
Proof.
  intros Hl Hd. unfold getAvgTasksPerDay. rewrite Hl.
  cbv zeta. rewrite (proj2 (Z.eqb_neq _ _) Hd).
  rewrite Math_floor_js_div by exact Hd.
  now rewrite count_findAll, findAll_completed.
Qed.

Lemma getAvgTasksPerDay_finite clk db user :
  isFinite (getAvgTasksPerDay clk db user) = true.
Proof.
  unfold getAvgTasksPerDay.
  destruct (getTodoListByUser db (User.id user)) as [todolist|]; [|reflexivity].
  cbv zeta. destruct (Moment.diff_days clk (User.createdAt user) =? 0) eqn:E;
    [reflexivity|].
  rewrite Math_floor_js_div by now apply Z.eqb_neq. reflexivity.
Qed.

(** C3: with a list and a strictly positive number of elapsed days,
    [getAvgTasksPerDay] is the floor of the number of completed tasks under
    the list divided by the elapsed days. *)
Theorem getAvgTasksPerDay_floor clk db user todolist :
  getTodoListByUser db (User.id user) = Some todolist ->
  0 < Moment.diff_days clk (User.createdAt user) ->
  getAvgTasksPerDay clk db user
  = Num (inject_Z (completedCount db todolist
                   / Moment.diff_days clk (User.createdAt user)))
  /\ (forall q : Z,
        getAvgTasksPerDay clk db user = Num (inject_Z q) ->
        q * Moment.diff_days clk (User.createdAt user) <= completedCount db todolist
        < (q + 1) * Moment.diff_days clk (User.createdAt user)).
Proof.
  intros Hl Hd.
  assert (E := getAvgTasksPerDay_quotient clk db user todolist Hl
                 ltac:(lia)).
  split; [exact E|].
  intros q Hq. rewrite E in Hq. injection Hq as Hq. subst q.
  set (c := completedCount db todolist) in *.
  set (d := Moment.diff_days clk (User.createdAt user)) in *.
  pose proof (Z.div_mod c d ltac:(lia)).
  pose proof (Z.mod_pos_bound c d Hd). nia.
Qed.

(** Seven completed tasks and two elapsed days give 3. *)
Lemma getAvgTasksPerDay_floor_witness :
  Moment.diff_days (Sample.utc (Sample.jan1 + 2 * Sample.day + 5))
    (User.createdAt Sample.alice) = 2
  /\ completedCount Sample.sevenDone (TodoList.mk 10 1) = 7
  /\ getAvgTasksPerDay (Sample.utc (Sample.jan1 + 2 * Sample.day + 5))
       Sample.sevenDone Sample.alice = Num (inject_Z 3).
Proof.
  split; [reflexivity|]. split; [reflexivity|].
  exact (proj1 (getAvgTasksPerDay_floor
                  (Sample.utc (Sample.jan1 + 2 * Sample.day + 5))
                  Sample.sevenDone Sample.alice (TodoList.mk 10 1)
                  eq_refl eq_refl)).
Defined.

(** C4: when zero whole days have elapsed since [createdAt],
    [getAvgTasksPerDay] returns 0 whatever the number of completed tasks;
    and on no input does the result come from a division by zero, which
    would make it NaN or an infinity. *)
Theorem getAvgTasksPerDay_zero_days clk db user todolist :
  getTodoListByUser db (User.id user) = Some todolist ->
  Moment.diff_days clk (User.createdAt user) = 0 ->
  getAvgTasksPerDay clk db user = Num 0
  /\ (forall tasks, getAvgTasksPerDay clk (withTasks db tasks) user = Num 0)
  /\ (forall clk' db' user', isFinite (getAvgTasksPerDay clk' db' user') = true).
Proof.
  intros Hl Hd.
  assert (H0 : forall db', getTodoListByUser db' (User.id user) = Some todolist ->
                 getAvgTasksPerDay clk db' user = Num 0).
  { intros db' Hl'. unfold getAvgTasksPerDay. rewrite Hl'. cbv zeta.
    now rewrite Hd. }
  split; [now apply H0|]. split.
  - intro tasks. apply H0. now rewrite getTodoListByUser_withTasks.
  - intros. apply getAvgTasksPerDay_finite.
Qed.

Lemma getAvgTasksPerDay_zero_days_witness :
  Moment.diff_days (Sample.utc (Sample.jan1 + 3600000))
    (User.createdAt Sample.alice) = 0
  /\ completedCount Sample.sevenDone (TodoList.mk 10 1) = 7
  /\ getAvgTasksPerDay (Sample.utc (Sample.jan1 + 3600000))
       Sample.sevenDone Sample.alice = Num 0.
Proof.
  split; [reflexivity|]. split; [reflexivity|].
  exact (proj1 (getAvgTasksPerDay_zero_days
                  (Sample.utc (Sample.jan1 + 3600000))
                  Sample.sevenDone Sample.alice (TodoList.mk 10 1)
                  eq_refl eq_refl)).
Defined.

Lemma diff_days_future clk that :
  now clk - that - Moment.zoneDelta clk that <= - 86400000 ->
  Moment.diff_days clk that <= -1.
Proof.
  unfold Moment.diff_days. intro H.
  set (a := now clk - that - Moment.zoneDelta clk that) in *.
  apply Z.quot_le_upper_bound; lia.
Qed.

(** C10: with a list, at least one completed task and a [createdAt] that
    lies one whole day or more after now, the day difference is negative,
    the guard [=== 0] does not fire, and [getAvgTasksPerDay] returns the
    negative floored quotient. *)
Theorem getAvgTasksPerDay_negative clk db user todolist :
  getTodoListByUser db (User.id user) = Some todolist ->
  now clk - User.createdAt user - Moment.zoneDelta clk (User.createdAt user)
    <= - 86400000 ->
  0 < completedCount db todolist ->
  exists q : Z,
    getAvgTasksPerDay clk db user = Num (inject_Z q)
    /\ q < 0
    /\ Moment.diff_days clk (User.createdAt user) < 0
    /\ q = completedCount db todolist / Moment.diff_days clk (User.createdAt user).
Proof.
  intros Hl Hfuture Hc.
  pose proof (diff_days_future clk _ Hfuture) as Hd.
  exists (completedCount db todolist / Moment.diff_days clk (User.createdAt user)).
  split; [apply getAvgTasksPerDay_quotient; [exact Hl | lia]|].
  split; [|split; [lia | reflexivity]].
  set (c := completedCount db todolist) in *.
  set (d := Moment.diff_days clk (User.createdAt user)) in *.
  pose proof (Z.div_mod c d ltac:(lia)).
  pose proof (Z.mod_neg_bound c d ltac:(lia)). nia.
Qed.

(** One completed task, account created two days ahead of now: -1. *)
Lemma getAvgTasksPerDay_negative_witness :
  exists q : Z,
    getAvgTasksPerDay (Sample.utc (Sample.jan1 - 2 * Sample.day))
      Sample.tie12 Sample.alice = Num (inject_Z q)
    /\ q < 0
    /\ Moment.diff_days (Sample.utc (Sample.jan1 - 2 * Sample.day))
         (User.createdAt Sample.alice) < 0
    /\ q = completedCount Sample.tie12 (TodoList.mk 10 1)
           / Moment.diff_days (Sample.utc (Sample.jan1 - 2 * Sample.day))
               (User.createdAt Sample.alice).
Proof.
  apply (getAvgTasksPerDay_negative
           (Sample.utc (Sample.jan1 - 2 * Sample.day))
           Sample.tie12 Sample.alice (TodoList.mk 10 1));
    [reflexivity | vm_compute; discriminate | reflexivity].
Defined.

Example avg_two_days_ahead_value :
  getAvgTasksPerDay (Sample.utc (Sample.jan1 - 2 * Sample.day))
    Sample.tie12 Sample.alice = Num (inject_Z (-2)).
Proof. reflexivity. Qed.

(** ** The grouping object *)

Section Grouping.

Import JsObject.

Lemma get_set o k v k' :
  get (set o k v) k' = if String.eqb k k' then Some v else get o k'.
Proof.
  induction o as [|[k0 v0] o IH]; simpl; [reflexivity|].
  destruct (String.eqb_spec k0 k) as [-> | Hne]; simpl.
  - now destruct (String.eqb k k').
  - rewrite IH. destruct (String.eqb_spec k0 k') as [-> | Hne'];
      [|reflexivity].
    destruct (String.eqb_spec k k') as [-> | _]; [now elim Hne | reflexivity].
Qed.

Lemma keys_set o k v :
  keys (set o k v) = if in_dec string_dec k (keys o) then keys o else keys o ++ [k].
Proof.
  induction o as [|[k0 v0] o IH]; simpl; [reflexivity|].
  destruct (String.eqb_spec k0 k) as [-> | Hne]; simpl.
  - destruct (string_dec k k) as [E|N]; [reflexivity | now elim N].
  - rewrite IH. destruct (string_dec k0 k) as [E|N]; [now elim Hne|].
    now destruct (in_dec string_dec k (keys o)).
Qed.

Lemma get_Some_In o k v : get o k = Some v -> In (k, v) o.
Proof.
  induction o as [|[k0 v0] o IH]; simpl; [discriminate|].
  destruct (String.eqb_spec k0 k) as [-> | Hne].
  - intro E. injection E as ->. now left.
  - intro E. right. now apply IH.
Qed.

Lemma In_get_NoDup o k v : NoDup (keys o) -> In (k, v) o -> get o k = Some v.
Proof.
  induction o as [|[k0 v0] o IH]; simpl; [intros _ []|].
  intros Hnd [E | Hin].
  - inversion E; subst. now rewrite String.eqb_refl.
  - inversion Hnd as [|? ? Hnotin Hnd']; subst.
    destruct (String.eqb_spec k0 k) as [-> | Hne].
    + elim Hnotin. change k with (fst (k, v)). now apply in_map.
    + now apply IH.
Qed.

Lemma or_zero_Some v : or_zero (Some v) = v.
Proof. unfold or_zero. destruct (Z.eqb_spec v 0); congruence. Qed.

Lemma keys_bump o d :
  keys (bump o d) = if in_dec string_dec d (keys o) then keys o else keys o ++ [d].
Proof. apply keys_set. Qed.

Lemma get_bump o d k :
  get (bump o d) k
  = if String.eqb d k then Some (or_zero (get o d) + 1) else get o k.
Proof. apply get_set. Qed.

Lemma groupStep_bump clk tasks o :
  fold_left (groupStep clk) tasks o
  = fold_left bump (map (MomentFormat.format_YYYY_MM_DD clk) tasks) o.
Proof.
  revert o. induction tasks as [|x tasks IH]; intro o; simpl;
    [reflexivity | apply IH].
Qed.


Lemma keys_fold_In l : forall o k,
  In k (keys (fold_left bump l o)) <-> In k (keys o) \/ In k l.
Proof.
  induction l as [|d l IH]; intros o k; simpl.
  - tauto.
  - rewrite IH, keys_bump.
    destruct (in_dec string_dec d (keys o)) as [Hin|Hnotin].
    + split; [tauto|]. intros [H | [<- | H]]; tauto.
    + rewrite in_app_iff. simpl. tauto.
Qed.

Lemma keys_fold_NoDup l : forall o,
  NoDup (keys o) -> NoDup (keys (fold_left bump l o)).
Proof.
  induction l as [|d l IH]; intros o Hnd; simpl; [exact Hnd|].
  apply IH. rewrite keys_bump.
  destruct (in_dec string_dec d (keys o)) as [Hin|Hnotin]; [exact Hnd|].
  apply NoDup_app; [exact Hnd | repeat constructor; intros [] |].
  intros x Hx [<- | []]. now elim Hnotin.
Qed.


Lemma completionsOn_cons d x l :
  completionsOn d (x :: l)
  = (if String.eqb x d then 1 else 0) + completionsOn d l.
Proof.
  unfold completionsOn. simpl.
  destruct (string_dec x d) as [-> | Hne].
  - rewrite String.eqb_refl. lia.
  - destruct (String.eqb_spec x d); [contradiction | lia].
Qed.

Lemma completionsOn_nonneg d l : 0 <= completionsOn d l.
Proof. unfold completionsOn. lia. Qed.

Lemma completionsOn_pos d l : In d l <-> 0 < completionsOn d l.
Proof.
  unfold completionsOn. rewrite (count_occ_In string_dec). lia.
Qed.

(** The value stored under a key is the number of its occurrences. *)
Lemma get_fold l : forall o k,
  get (fold_left bump l o) k
  = if completionsOn k l =? 0 then get o k
    else Some (or_zero (get o k) + completionsOn k l).
Proof.
  induction l as [|d l IH]; intros o k; simpl; [reflexivity|].
  rewrite IH, get_bump, completionsOn_cons.
  pose proof (completionsOn_nonneg k l) as Hnn.
  destruct (String.eqb_spec d k) as [-> | Hne].
  - destruct (Z.eqb_spec (completionsOn k l) 0) as [E0 | N0].
    + rewrite E0. simpl. reflexivity.
    + destruct (Z.eqb_spec (1 + completionsOn k l) 0); [lia|].
      rewrite or_zero_Some. f_equal. lia.
  - reflexivity.
Qed.

Lemma entries_no_index o :
  (forall k, In k (keys o) -> isArrayIndex k = false) -> entries o = o.
Proof.
  intro H. unfold entries.
  assert (E1 : filter (fun e => isArrayIndex (fst e)) o = []).
  { induction o as [|e o IH]; simpl; [reflexivity|].
    rewrite (H (fst e)) by now left. apply IH. intros k Hk. apply H. now right. }
  assert (E2 : filter (fun e => negb (isArrayIndex (fst e))) o = o).
  { induction o as [|e o IH]; simpl; [reflexivity|].
    rewrite (H (fst e)) by now left. simpl. f_equal. apply IH.
    - intros k Hk. apply H. now right.
    - simpl in E1. now rewrite (H (fst e)) in E1 by now left. }
  now rewrite E1, E2.
Qed.

End Grouping.

(** ** The text produced by the date format *)

Lemma allBelow_spec n p :
  allBelow n p = true -> forall z, 0 <= z < Z.of_nat n -> p z = true.
Proof.
  induction n as [|n IH]; intros H z Hz; [lia|].
  simpl in H. apply andb_true_iff in H. destruct H as [Hn Hrest].
  destruct (Z.eq_dec z (Z.of_nat n)) as [-> | Hne]; [exact Hn|].
  apply IH; [exact Hrest | lia].
Qed.

Lemma zeroFill_year y :
  0 <= y <= 9999 -> hasDigits 4 (MomentFormat.zeroFill y 4) = true.
Proof.
  intro H.
  apply (allBelow_spec (Z.to_nat 10000)
           (fun y => hasDigits 4 (MomentFormat.zeroFill y 4)));
    [vm_compute; reflexivity | lia].
Qed.

Lemma zeroFill_two n :
  0 <= n <= 99 -> hasDigits 2 (MomentFormat.zeroFill n 2) = true.
Proof.
  intro H.
  apply (allBelow_spec (Z.to_nat 100)
           (fun n => hasDigits 2 (MomentFormat.zeroFill n 2)));
    [vm_compute; reflexivity | lia].
Qed.

Lemma fieldsOfDay_bounds day :
  0 <= JSDate.month (JSDate.fieldsOfDay day) <= 11
  /\ 1 <= JSDate.date (JSDate.fieldsOfDay day) <= 31.
Proof.
  unfold JSDate.fieldsOfDay. cbv zeta. cbn [JSDate.month JSDate.date].
  set (z := day + 719468).
  set (doe := z - z / 146097 * 146097).
  assert (Hdoe : 0 <= doe < 146097)
    by (subst doe; Z.div_mod_to_equations; lia).
  clearbody doe.
  set (yoe := (doe - doe / 1460 + doe / 36524 - doe / 146096) / 365).
  set (doy := doe - (365 * yoe + yoe / 4 - yoe / 100)).
  assert (Hdoy : 0 <= doy <= 365)
    by (subst doy yoe; Z.div_mod_to_equations; lia).
  clearbody doy.
  set (mp := (5 * doy + 2) / 153).
  assert (Hmp : 0 <= mp <= 11) by (subst mp; Z.div_mod_to_equations; lia).
  split.
  - destruct (mp <? 10) eqn:E; [apply Z.ltb_lt in E | apply Z.ltb_ge in E]; lia.
  - subst mp. Z.div_mod_to_equations. lia.
Qed.

Lemma shape_of_parts Y M D :
  hasDigits 4 Y = true -> hasDigits 2 M = true -> hasDigits 2 D = true ->
  is_YYYY_MM_DD (Y ++ "-" ++ M ++ "-" ++ D)%string = true.
Proof.
  unfold hasDigits. intros HY HM HD.
  apply andb_true_iff in HY, HM, HD.
  destruct HY as [LY AY], HM as [LM AM], HD as [LD AD].
  destruct Y as [|y1 [|y2 [|y3 [|y4 [|? ?]]]]]; try discriminate LY.
  destruct M as [|m1 [|m2 [|? ?]]]; try discriminate LM.
  destruct D as [|d1 [|d2 [|? ?]]]; try discriminate LD.
  simpl in AY, AM, AD.
  repeat match goal with
         | H : _ && _ = true |- _ => apply andb_true_iff in H; destruct H
         end.
  unfold is_YYYY_MM_DD. simpl.
  repeat match goal with
         | H : isDigit _ = true |- _ => rewrite H; clear H
         end.
  reflexivity.
Qed.

(** With a completion instant whose local year has four digits the format
    has the shape YYYY-MM-DD. *)
Lemma format_shape clk c :
  fourDigitYear clk c = true ->
  is_YYYY_MM_DD (MomentFormat.format_YYYY_MM_DD clk c) = true.
Proof.
  destruct c as [t|]; [|discriminate]. unfold fourDigitYear. intro Hy.
  apply andb_true_iff in Hy. destruct Hy as [H0 H9].
  apply Z.leb_le in H0, H9.
  unfold MomentFormat.format_YYYY_MM_DD, JSDate.localFields in *.
  set (f := JSDate.fieldsOfDay _) in *. cbv zeta.
  destruct (fieldsOfDay_bounds (JSDate.Day (t + utcOffset clk t * 60000)))
    as [Hm Hd].
  fold f in Hm, Hd.
  apply shape_of_parts;
    [apply zeroFill_year | apply zeroFill_two | apply zeroFill_two]; lia.
Qed.

Lemma allDigits_hyphen a b : allDigits (a ++ String "-" b) = false.
Proof.
  induction a as [|c a IH]; simpl; [reflexivity|].
  rewrite IH. apply andb_false_r.
Qed.

Lemma isArrayIndex_allDigits k : allDigits k = false -> JsObject.isArrayIndex k = false.
Proof.
  unfold JsObject.isArrayIndex. destruct k as [|c rest]; [reflexivity|].
  now intros ->.
Qed.

(** No text produced by the format is an array index, so the grouping
    object is enumerated in the order in which its keys were created. *)
Lemma format_not_index clk c :
  JsObject.isArrayIndex (MomentFormat.format_YYYY_MM_DD clk c) = false.
Proof.
  destruct c as [t|]; [|reflexivity].
  apply isArrayIndex_allDigits.
  unfold MomentFormat.format_YYYY_MM_DD. cbv zeta.
  set (Y := MomentFormat.zeroFill _ 4). set (M := MomentFormat.zeroFill _ 2).
  set (D := MomentFormat.zeroFill (JSDate.date _) 2).
  change (Y ++ "-" ++ M ++ "-" ++ D)%string
    with (Y ++ String "-" (M ++ "-" ++ D))%string.
  apply allDigits_hyphen.
Qed.

(** ** The loop that finds the maximum *)


Lemma maxLoop_spec (E : list (string * Z)) : forall maxDate maxCount,
  (fold_left maxStep E (maxDate, maxCount) = (maxDate, maxCount)
   /\ forall e, In e E -> snd e <= maxCount)
  \/ exists E1 d c E2,
      E = E1 ++ (d, c) :: E2
      /\ fold_left maxStep E (maxDate, maxCount) = (Some d, c)
      /\ maxCount < c
      /\ (forall e, In e E1 -> snd e < c)
      /\ (forall e, In e E2 -> snd e <= c).
Proof.
  induction E as [|[d0 c0] E IH]; intros maxDate maxCount.
  - left. split; [reflexivity | intros e []].
  - cbn [fold_left].
    change (maxStep (maxDate, maxCount) (d0, c0))
      with (if c0 >? maxCount then (Some d0, c0) else (maxDate, maxCount)).
    destruct (Z.gtb_spec c0 maxCount) as [Hgt | Hle].
    + right. destruct (IH (Some d0) c0)
        as [[Efix Hall] | (E1 & d & c & E2 & -> & Eres & Hlt & H1 & H2)].
      * exists [], d0, c0, E.
        split; [reflexivity|]. split; [exact Efix|]. split; [lia|].
        split; [intros e [] | exact Hall].
      * exists ((d0, c0) :: E1), d, c, E2.
        split; [reflexivity|]. split; [exact Eres|]. split; [lia|].
        split; [|exact H2].
        intros e [<- | Hin]; [exact Hlt | now apply H1].
    + destruct (IH maxDate maxCount)
        as [[Efix Hall] | (E1 & d & c & E2 & -> & Eres & Hlt & H1 & H2)].
      * left. split; [exact Efix|].
        intros e [<- | Hin]; [exact Hle | now apply Hall].
      * right. exists ((d0, c0) :: E1), d, c, E2.
        split; [reflexivity|]. split; [exact Eres|]. split; [exact Hlt|].
        split; [|exact H2].
        intros e [<- | Hin]; [simpl; lia | now apply H1].
Qed.

(** ** getDateWithMostCompletedTasks *)



(** With a list, the operation is the loop run on the grouping of the
    completion dates. *)
Lemma getDateWithMostCompletedTasks_unfold clk db user todolist :
  getTodoListByUser db (User.id user) = Some todolist ->
  getDateWithMostCompletedTasks clk db user
  = fst (fold_left maxStep
           (fold_left bump (completionDates clk db todolist) []) (None, 0)).
Proof.
  intro Hl. unfold getDateWithMostCompletedTasks. rewrite Hl. cbv zeta.
  rewrite findAll_completed, groupStep_bump, map_map.
  fold (completionDates clk db todolist).
  rewrite entries_no_index; [reflexivity|].
  intros k Hk. apply keys_fold_In in Hk. destruct Hk as [[] | Hk].
  unfold completionDates in Hk. apply in_map_iff in Hk.
  destruct Hk as (t & <- & _). apply format_not_index.
Qed.

Lemma grouped_value dates k v :
  In (k, v) (fold_left bump dates []) ->
  v = completionsOn k dates /\ 0 < v.
Proof.
  intro Hin.
  apply In_get_NoDup in Hin; [|apply keys_fold_NoDup; constructor].
  rewrite get_fold in Hin. simpl in Hin.
  pose proof (completionsOn_nonneg k dates).
  destruct (Z.eqb_spec (completionsOn k dates) 0); [discriminate|].
  injection Hin as <-. lia.
Qed.

Lemma grouped_entry dates k :
  In k dates -> In (k, completionsOn k dates) (fold_left bump dates []).
Proof.
  intro Hin. apply get_Some_In. rewrite get_fold. simpl.
  apply completionsOn_pos in Hin.
  destruct (Z.eqb_spec (completionsOn k dates) 0); [lia | reflexivity].
Qed.

(** C2: for a user without a list, [getTaskCount] returns all zeros,
    [getAvgTasksPerDay] and [getTasksNotCompletedOnTime] return 0 and
    [getDateWithMostCompletedTasks] returns null. *)
Theorem no_list_neutral_results clk db user :
  getTodoListByUser db (User.id user) = None ->
  getTaskCount db user
  = {| totalTasks := 0; completedTasks := 0; remainingTasks := 0 |}
  /\ getAvgTasksPerDay clk db user = Num 0
  /\ getTasksNotCompletedOnTime db user = 0
  /\ getDateWithMostCompletedTasks clk db user = None.
Proof.
  intro Hl.
  unfold getTaskCount, getAvgTasksPerDay, getTasksNotCompletedOnTime,
    getDateWithMostCompletedTasks.
  rewrite Hl. repeat split.
Qed.

Lemma no_list_neutral_results_witness :
  getTodoListByUser Sample.store (User.id Sample.bob) = None
  /\ getTaskCount Sample.store Sample.bob
     = {| totalTasks := 0; completedTasks := 0; remainingTasks := 0 |}
  /\ getAvgTasksPerDay (Sample.utc Sample.jan2) Sample.store Sample.bob = Num 0
  /\ getTasksNotCompletedOnTime Sample.store Sample.bob = 0
  /\ getDateWithMostCompletedTasks (Sample.utc Sample.jan2) Sample.store Sample.bob
     = None.
Proof.
  split; [reflexivity|].
  apply (no_list_neutral_results (Sample.utc Sample.jan2) Sample.store Sample.bob).
  reflexivity.
Defined.

(** C7: with a list that has no completed task, whatever its pending
    tasks, [getDateWithMostCompletedTasks] returns null. *)
Theorem getDateWithMostCompletedTasks_none_completed clk db user todolist :
  getTodoListByUser db (User.id user) = Some todolist ->
  completedUnder db todolist = [] ->
  getDateWithMostCompletedTasks clk db user = None.
Proof.
  intros Hl Hnone.
  rewrite (getDateWithMostCompletedTasks_unfold clk db user todolist Hl).
  unfold completionDates. now rewrite Hnone.
Qed.

Lemma getDateWithMostCompletedTasks_none_completed_witness :
  length (tasksUnder Sample.onlyPending (TodoList.mk 10 1)) = 2%nat
  /\ getDateWithMostCompletedTasks (Sample.utc Sample.jan2)
       Sample.onlyPending Sample.alice = None.
Proof.
  split; [reflexivity|].
  apply (getDateWithMostCompletedTasks_none_completed
           (Sample.utc Sample.jan2) Sample.onlyPending Sample.alice
           (TodoList.mk 10 1)); reflexivity.
Defined.



Example tie_first_row_jan1 :
  completionDates (Sample.utc Sample.jan2) Sample.tie12 (TodoList.mk 10 1)
  = ["2024-01-01"; "2024-01-02"; "2024-01-02"; "2024-01-01"]%string
  /\ getDateWithMostCompletedTasks (Sample.utc Sample.jan2)
       Sample.tie12 Sample.alice = Some "2024-01-01"%string.
Proof. split; reflexivity. Qed.

Example tie_first_row_jan2 :
  completionDates (Sample.utc Sample.jan2) Sample.tie21 (TodoList.mk 10 1)
  = ["2024-01-02"; "2024-01-01"; "2024-01-02"; "2024-01-01"]%string
  /\ getDateWithMostCompletedTasks (Sample.utc Sample.jan2)
       Sample.tie21 Sample.alice = Some "2024-01-02"%string.
Proof. split; reflexivity. Qed.

(** The format keeps the local calendar day only: instants of the same
    local day have the same text. *)
Lemma format_same_day clk c c' :
  JSDate.Day (c' + utcOffset clk c' * 60000)
  = JSDate.Day (c + utcOffset clk c * 60000) ->
  MomentFormat.format_YYYY_MM_DD clk (Some c')
  = MomentFormat.format_YYYY_MM_DD clk (Some c).
Proof.
  intro E. unfold MomentFormat.format_YYYY_MM_DD, JSDate.localFields.
  now rewrite E.
Qed.

(** C8, as stated, fails: a row marked completed with a null completion
    instant makes the operation return a text that is not a date. *)
Lemma getDateWithMostCompletedTasks_not_always_a_date :
  ~ (forall clk db user d,
       getDateWithMostCompletedTasks clk db user = Some d ->
       is_YYYY_MM_DD d = true).
Proof.
  intro H.
  specialize (H (Sample.utc Sample.jan2) Sample.completedWithoutInstant
                Sample.alice "Invalid date"%string eq_refl).
  discriminate H.
Qed.

(** A completion in the year 10000 is grouped under a five-digit year. *)
Example getDateWithMostCompletedTasks_year_10000 :
  getDateWithMostCompletedTasks (Sample.utc Sample.jan2)
    {| todoListTable := Sample.lists;
       taskTable := [Sample.done 10 253402300800000 Sample.jan2] |}
    Sample.alice = Some "10000-01-01"%string.
Proof. reflexivity. Qed.

(** C8, amended: when every completed task under the list has a completion
    instant whose local calendar year lies in 0..9999, a non-null result
    of [getDateWithMostCompletedTasks] has the shape YYYY-MM-DD; it is the
    date portion of the completion instant of a completed task of the list,
    whatever the time of day. *)
Theorem getDateWithMostCompletedTasks_date_shape clk db user todolist d :
  getTodoListByUser db (User.id user) = Some todolist ->
  forallb (fun t => fourDigitYear clk (Task.completionDateTime t))
          (completedUnder db todolist) = true ->
  getDateWithMostCompletedTasks clk db user = Some d ->
  is_YYYY_MM_DD d = true
  /\ exists t c,
       In t (completedUnder db todolist)
       /\ Task.completionDateTime t = Some c
       /\ forall c',
            JSDate.Day (c' + utcOffset clk c' * 60000)
            = JSDate.Day (c + utcOffset clk c * 60000) ->
            MomentFormat.format_YYYY_MM_DD clk (Some c') = d.
Proof.
  intros Hl Hyears Hres.
  rewrite (getDateWithMostCompletedTasks_unfold clk db user todolist Hl) in Hres.
  set (dates := completionDates clk db todolist) in *.
  destruct (maxLoop_spec (fold_left bump dates []) None 0)
    as [[Efix _] | (E1 & d1 & c1 & E2 & EG & Eres & _)].
  { rewrite Efix in Hres. discriminate Hres. }
  rewrite Eres in Hres. simpl in Hres. injection Hres as ->.
  assert (Hin : In (d, c1) (fold_left bump dates []))
    by (rewrite EG; apply in_or_app; right; now left).
  destruct (grouped_value dates d c1 Hin) as [Ec Hpos].
  assert (Hd : In d dates) by (apply completionsOn_pos; lia).
  unfold dates, completionDates in Hd. apply in_map_iff in Hd.
  destruct Hd as (t & Et & Ht).
  rewrite forallb_forall in Hyears. pose proof (Hyears t Ht) as Hy.
  split; [rewrite <- Et; now apply format_shape|].
  destruct (Task.completionDateTime t) as [c|] eqn:Ecdt; [|discriminate Hy].
  exists t, c. split; [exact Ht|]. split; [exact Ecdt|].
  intros c' Hday. rewrite <- Et. now apply format_same_day.
Qed.

Lemma getDateWithMostCompletedTasks_date_shape_witness :
  getDateWithMostCompletedTasks (Sample.utc Sample.jan2) Sample.store Sample.alice
  = Some "2024-01-02"%string
  /\ is_YYYY_MM_DD "2024-01-02" = true.
Proof.
  split; [reflexivity|].
  exact (proj1 (getDateWithMostCompletedTasks_date_shape
                  (Sample.utc Sample.jan2) Sample.store Sample.alice
                  (TodoList.mk 10 1) "2024-01-02"%string
                  eq_refl eq_refl eq_refl)).
Defined.

(** ** The four operations on one store *)

(** Ten days after the account was created, with five completions of which
    two are late, three of them on 2024-01-02. *)
Example reports_end_to_end :
  let clk := Sample.utc (Sample.jan1 + 10 * Sample.day) in
  getTaskCount Sample.fiveDone Sample.alice
  = {| totalTasks := 6; completedTasks := 5; remainingTasks := 1 |}
  /\ getAvgTasksPerDay clk Sample.fiveDone Sample.alice = Num (inject_Z 0)
  /\ getTasksNotCompletedOnTime Sample.fiveDone Sample.alice = 2
  /\ getDateWithMostCompletedTasks clk Sample.fiveDone Sample.alice
     = Some "2024-01-02"%string.
Proof. repeat split. Qed.


(** * Further properties of the service *)

(** ** Each operation in terms of the tasks under the list *)

Lemma getTaskCount_with_list db user todolist :
  getTodoListByUser db (User.id user) = Some todolist ->
  getTaskCount db user
  = {| totalTasks := Z.of_nat (length (tasksUnder db todolist));
       completedTasks := completedCount db todolist;
       remainingTasks := Z.of_nat (length (tasksUnder db todolist))
                         - completedCount db todolist |}.
Proof.
  intro Hl. unfold getTaskCount. rewrite Hl.
  cbn [Sequelize.findAndCountAll Sequelize.count_ Sequelize.rows].
  now rewrite count_findAll, findAll_todoListId.
Qed.

Lemma getTasksNotCompletedOnTime_with_list db user todolist :
  getTodoListByUser db (User.id user) = Some todolist ->
  getTasksNotCompletedOnTime db user
  = Z.of_nat (length (filter completedLate (tasksUnder db todolist))).
Proof.
  intro Hl. unfold getTasksNotCompletedOnTime. rewrite Hl.
  now rewrite count_findAll, findAll_completedLate.
Qed.

Lemma completedCount_nonneg db todolist : 0 <= completedCount db todolist.
Proof. unfold completedCount. lia. Qed.

(** ** How the operations agree with each other *)

(** The SQL count with [completionStatus: true] that [getAvgTasksPerDay]
    divides is the number [getTaskCount] obtains by filtering the rows in
    JavaScript: outside the zero-day guard the average is the floor of
    [getTaskCount(user).completedTasks] by the day difference. *)
Theorem getAvgTasksPerDay_of_getTaskCount clk db user :
  Moment.diff_days clk (User.createdAt user) <> 0 ->
  getAvgTasksPerDay clk db user
  = Num (inject_Z (completedTasks (getTaskCount db user)
                   / Moment.diff_days clk (User.createdAt user))).
Proof.
  intro Hd.
  destruct (getTodoListByUser db (User.id user)) as [todolist|] eqn:Hl.
  - rewrite (getAvgTasksPerDay_quotient clk db user todolist Hl Hd).
    now rewrite (getTaskCount_with_list db user todolist Hl).
  - unfold getAvgTasksPerDay, getTaskCount. rewrite Hl. reflexivity.
Qed.

Lemma getAvgTasksPerDay_of_getTaskCount_witness :
  getAvgTasksPerDay (Sample.utc (Sample.jan1 + 2 * Sample.day))
    Sample.fiveDone Sample.alice
  = Num (inject_Z (completedTasks (getTaskCount Sample.fiveDone Sample.alice)
                   / Moment.diff_days (Sample.utc (Sample.jan1 + 2 * Sample.day))
                       (User.createdAt Sample.alice))).
Proof.
  apply (getAvgTasksPerDay_of_getTaskCount
           (Sample.utc (Sample.jan1 + 2 * Sample.day)) Sample.fiveDone Sample.alice).
  vm_compute. discriminate.
Defined.

(** The number of late completions never exceeds the number of completed
    tasks that [getTaskCount] reports, with or without a list. *)
Theorem late_at_most_completed db user :
  0 <= getTasksNotCompletedOnTime db user <= completedTasks (getTaskCount db user).
Proof.
  destruct (getTodoListByUser db (User.id user)) as [todolist|] eqn:Hl.
  - rewrite (getTasksNotCompletedOnTime_with_list db user todolist Hl),
      (getTaskCount_with_list db user todolist Hl).
    cbn [completedTasks]. unfold completedCount, completedUnder, completedLate.
    rewrite filter_and.
    pose proof (filter_length_le
                  (fun t => match Task.completionDateTime t with
                            | Some c => Task.dueDateTime t <? c
                            | None => false
                            end)
                  (filter Task.completionStatus (tasksUnder db todolist))).
    lia.
  - unfold getTasksNotCompletedOnTime, getTaskCount. rewrite Hl. simpl. lia.
Qed.

(** [getDateWithMostCompletedTasks] returns null exactly when [getTaskCount]
    reports no completed task, with or without a list. *)
Theorem no_date_iff_no_completed clk db user :
  getDateWithMostCompletedTasks clk db user = None
  <-> completedTasks (getTaskCount db user) = 0.
Proof.
  destruct (getTodoListByUser db (User.id user)) as [todolist|] eqn:Hl.
  - rewrite (getDateWithMostCompletedTasks_unfold clk db user todolist Hl),
      (getTaskCount_with_list db user todolist Hl).
    cbn [completedTasks].
    set (dates := completionDates clk db todolist).
    assert (Hlen : completedCount db todolist = Z.of_nat (length dates)).
    { unfold dates, completionDates, completedCount. now rewrite length_map. }
    rewrite Hlen. split.
    + intro Hnone. destruct dates as [|d0 rest] eqn:Ed; [reflexivity|].
      exfalso.
      destruct (maxLoop_spec (fold_left bump (d0 :: rest) []) None 0)
        as [[_ Hall] | (E1 & d & c & E2 & _ & Eres & _)].
      * pose proof (Hall _ (grouped_entry (d0 :: rest) d0 (or_introl eq_refl))) as Hle.
        simpl in Hle.
        assert (In d0 (d0 :: rest)) as Hin by now left.
        apply completionsOn_pos in Hin. lia.
      * rewrite Eres in Hnone. discriminate Hnone.
    + intro H0. destruct dates; [reflexivity | simpl in H0; lia].
  - unfold getDateWithMostCompletedTasks, getTaskCount. rewrite Hl. simpl.
    split; reflexivity.
Qed.

(** ** The zero-day guard and the sign of the average *)

Lemma diff_days_zero_iff clk that :
  Moment.diff_days clk that = 0 <-> - 86400000 < elapsedMs clk that < 86400000.
Proof.
  unfold Moment.diff_days, elapsedMs.
  set (a := now clk - that - Moment.zoneDelta clk that).
  pose proof (Z.quot_rem' a 86400000) as E.
  split.
  - intro H0. rewrite H0 in E.
    pose proof (Z.rem_bound_abs a 86400000 ltac:(lia)). lia.
  - intro Hb. destruct (Z.le_gt_cases 0 a) as [Hpos | Hneg].
    + apply Z.quot_small. lia.
    + rewrite <- (Z.opp_involutive a), Z.quot_opp_l by lia.
      rewrite Z.quot_small; lia.
Qed.

(** The guard [daysSinceAccountCreation === 0] covers every [createdAt]
    less than one whole day away from now, before or after it: the average
    is 0 there whatever the tasks are. *)
Theorem getAvgTasksPerDay_within_a_day clk db user :
  - 86400000 < elapsedMs clk (User.createdAt user) < 86400000 ->
  getAvgTasksPerDay clk db user = Num 0.
Proof.
  intro Hb. apply diff_days_zero_iff in Hb.
  unfold getAvgTasksPerDay.
  destruct (getTodoListByUser db (User.id user)); [|reflexivity].
  cbv zeta. now rewrite Hb.
Qed.

(** An account dated eighteen hours ahead of now, seven completed tasks. *)
Lemma getAvgTasksPerDay_within_a_day_witness :
  elapsedMs (Sample.utc Sample.jan1) (User.createdAt MoreSamples.carol) = - 64800000
  /\ getAvgTasksPerDay (Sample.utc Sample.jan1) Sample.sevenDone MoreSamples.carol
     = Num 0.
Proof.
  split; [reflexivity|].
  apply (getAvgTasksPerDay_within_a_day
           (Sample.utc Sample.jan1) Sample.sevenDone MoreSamples.carol).
  split; reflexivity.
Defined.

(** With a positive number of elapsed days the average lies between 0 and
    the number of completed tasks, and it is 0 exactly when fewer tasks
    were completed than days have elapsed. *)
Theorem getAvgTasksPerDay_positive_days_bounds clk db user todolist :
  getTodoListByUser db (User.id user) = Some todolist ->
  0 < Moment.diff_days clk (User.createdAt user) ->
  exists q : Z,
    getAvgTasksPerDay clk db user = Num (inject_Z q)
    /\ 0 <= q <= completedCount db todolist
    /\ (q = 0 <-> completedCount db todolist
                  < Moment.diff_days clk (User.createdAt user)).
Proof.
  intros Hl Hd.
  exists (completedCount db todolist / Moment.diff_days clk (User.createdAt user)).
  split; [apply getAvgTasksPerDay_quotient; [exact Hl | lia]|].
  pose proof (completedCount_nonneg db todolist) as Hc.
  set (c := completedCount db todolist) in *.
  set (d := Moment.diff_days clk (User.createdAt user)) in *.
  pose proof (Z.div_mod c d ltac:(lia)) as E.
  pose proof (Z.mod_pos_bound c d Hd) as Hm.
  split; [split; nia|]. split.
  - intro H0. rewrite H0 in E. lia.
  - intro Hlt. apply Z.div_small. lia.
Qed.

(** Five completed tasks in ten days average to 0. *)
Lemma getAvgTasksPerDay_positive_days_bounds_witness :
  exists q : Z,
    getAvgTasksPerDay (Sample.utc (Sample.jan1 + 10 * Sample.day))
      Sample.fiveDone Sample.alice = Num (inject_Z q)
    /\ 0 <= q <= completedCount Sample.fiveDone (TodoList.mk 10 1)
    /\ (q = 0 <-> completedCount Sample.fiveDone (TodoList.mk 10 1)
                  < Moment.diff_days (Sample.utc (Sample.jan1 + 10 * Sample.day))
                      (User.createdAt Sample.alice)).
Proof.
  apply (getAvgTasksPerDay_positive_days_bounds
           (Sample.utc (Sample.jan1 + 10 * Sample.day))
           Sample.fiveDone Sample.alice (TodoList.mk 10 1)); reflexivity.
Defined.

(** ** A list without tasks *)

(** A user whose list holds no task gets the results of a user without a
    list, as long as [createdAt] is not a whole day or more ahead of now. *)
Theorem empty_list_neutral_results clk db user todolist :
  getTodoListByUser db (User.id user) = Some todolist ->
  tasksUnder db todolist = [] ->
  0 <= Moment.diff_days clk (User.createdAt user) ->
  getTaskCount db user
  = {| totalTasks := 0; completedTasks := 0; remainingTasks := 0 |}
  /\ getAvgTasksPerDay clk db user = Num 0
  /\ getTasksNotCompletedOnTime db user = 0
  /\ getDateWithMostCompletedTasks clk db user = None.
Proof.
  intros Hl Hempty Hd.
  assert (Hc : completedCount db todolist = 0)
    by (unfold completedCount, completedUnder; now rewrite Hempty).
  split; [|split; [|split]].
  - rewrite (getTaskCount_with_list db user todolist Hl), Hc, Hempty. reflexivity.
  - destruct (Z.eq_dec (Moment.diff_days clk (User.createdAt user)) 0) as [E0 | N0].
    + unfold getAvgTasksPerDay. rewrite Hl. cbv zeta. now rewrite E0.
    + rewrite (getAvgTasksPerDay_quotient clk db user todolist Hl N0), Hc.
      now rewrite Z.div_0_l.
  - rewrite (getTasksNotCompletedOnTime_with_list db user todolist Hl), Hempty.
    reflexivity.
  - rewrite (getDateWithMostCompletedTasks_unfold clk db user todolist Hl).
    unfold completionDates, completedUnder. now rewrite Hempty.
Qed.

Lemma empty_list_neutral_results_witness :
  getTaskCount MoreSamples.emptyList Sample.alice
  = {| totalTasks := 0; completedTasks := 0; remainingTasks := 0 |}
  /\ getAvgTasksPerDay (Sample.utc Sample.jan2) MoreSamples.emptyList Sample.alice
     = Num 0
  /\ getTasksNotCompletedOnTime MoreSamples.emptyList Sample.alice = 0
  /\ getDateWithMostCompletedTasks (Sample.utc Sample.jan2)
       MoreSamples.emptyList Sample.alice = None.
Proof.
  apply (empty_list_neutral_results (Sample.utc Sample.jan2)
           MoreSamples.emptyList Sample.alice (TodoList.mk 10 1));
    [reflexivity | reflexivity | vm_compute; discriminate].
Defined.

(** ** Only the tasks of the user's own list count *)

(** Two stores in which the user's lookup finds the same list with the same
    tasks under it give the same four results, whatever the other lists
    hold. *)
Theorem results_depend_on_own_list clk db db' user todolist :
  getTodoListByUser db (User.id user) = Some todolist ->
  getTodoListByUser db' (User.id user) = Some todolist ->
  tasksUnder db' todolist = tasksUnder db todolist ->
  getTaskCount db' user = getTaskCount db user
  /\ getAvgTasksPerDay clk db' user = getAvgTasksPerDay clk db user
  /\ getTasksNotCompletedOnTime db' user = getTasksNotCompletedOnTime db user
  /\ getDateWithMostCompletedTasks clk db' user
     = getDateWithMostCompletedTasks clk db user.
Proof.
  intros Hl Hl' Hsame.
  assert (Hc : completedCount db' todolist = completedCount db todolist)
    by (unfold completedCount, completedUnder; now rewrite Hsame).
  split; [|split; [|split]].
  - rewrite (getTaskCount_with_list db user todolist Hl),
      (getTaskCount_with_list db' user todolist Hl'), Hc, Hsame. reflexivity.
  - destruct (Z.eq_dec (Moment.diff_days clk (User.createdAt user)) 0) as [E0 | N0].
    + unfold getAvgTasksPerDay. rewrite Hl, Hl'. cbv zeta. now rewrite E0.
    + rewrite (getAvgTasksPerDay_quotient clk db user todolist Hl N0),
        (getAvgTasksPerDay_quotient clk db' user todolist Hl' N0), Hc.
      reflexivity.
  - rewrite (getTasksNotCompletedOnTime_with_list db user todolist Hl),
      (getTasksNotCompletedOnTime_with_list db' user todolist Hl'), Hsame.
    reflexivity.
  - rewrite (getDateWithMostCompletedTasks_unfold clk db user todolist Hl),
      (getDateWithMostCompletedTasks_unfold clk db' user todolist Hl').
    unfold completionDates, completedUnder. now rewrite Hsame.
Qed.

Lemma results_depend_on_own_list_witness :
  getTaskCount MoreSamples.otherLists Sample.alice
  = getTaskCount Sample.store Sample.alice
  /\ getAvgTasksPerDay (Sample.utc (Sample.jan2 + Sample.day))
       MoreSamples.otherLists Sample.alice
     = getAvgTasksPerDay (Sample.utc (Sample.jan2 + Sample.day))
         Sample.store Sample.alice
  /\ getTasksNotCompletedOnTime MoreSamples.otherLists Sample.alice
     = getTasksNotCompletedOnTime Sample.store Sample.alice
  /\ getDateWithMostCompletedTasks (Sample.utc (Sample.jan2 + Sample.day))
       MoreSamples.otherLists Sample.alice
     = getDateWithMostCompletedTasks (Sample.utc (Sample.jan2 + Sample.day))
         Sample.store Sample.alice.
Proof.
  apply (results_depend_on_own_list (Sample.utc (Sample.jan2 + Sample.day))
           Sample.store MoreSamples.otherLists Sample.alice (TodoList.mk 10 1));
    reflexivity.
Defined.

(** ** The grouping object built by the reduce *)

Lemma sumOfCounts_set o k w :
  sumOfCounts (JsObject.set o k w)
  = sumOfCounts o - JsObject.or_zero (JsObject.get o k) + w.
Proof.
  induction o as [|[k0 v0] o IH]; simpl; [lia|].
  destruct (String.eqb_spec k0 k) as [-> | Hne]; simpl.
  - pose proof (or_zero_Some v0) as E. unfold JsObject.or_zero in E.
    rewrite E. lia.
  - rewrite IH. lia.
Qed.

Lemma sumOfCounts_fold l : forall o,
  sumOfCounts (fold_left bump l o) = sumOfCounts o + Z.of_nat (length l).
Proof.
  induction l as [|d l IH]; intro o; simpl length; cbn [fold_left]; [lia|].
  rewrite IH. unfold bump. rewrite sumOfCounts_set. lia.
Qed.

(** After the reduce over any rows, [tasksByDate] has one property for
    each date that occurs, none else, each holding the number of rows of
    that date, and the counts add up to the number of rows. *)
Theorem tasksByDate_invariant clk (tasks : list (option Z)) :
  let dates := map (MomentFormat.format_YYYY_MM_DD clk) tasks in
  let tasksByDate := fold_left (groupStep clk) tasks [] in
  NoDup (JsObject.keys tasksByDate)
  /\ (forall date count,
        In (date, count) tasksByDate
        <-> In date dates /\ count = completionsOn date dates)
  /\ (forall date, ~ In date dates -> JsObject.get tasksByDate date = None)
  /\ sumOfCounts tasksByDate = Z.of_nat (length tasks).
Proof.
  intros dates tasksByDate. subst tasksByDate. rewrite groupStep_bump.
  fold dates. split; [apply keys_fold_NoDup; constructor|].
  split; [|split].
  - intros date count. split.
    + intro Hin. destruct (grouped_value dates date count Hin) as [E Hpos].
      split; [apply completionsOn_pos; lia | exact E].
    + intros [Hin ->]. now apply grouped_entry.
  - intros date Hnot. rewrite get_fold. simpl.
    destruct (Z.eqb_spec (completionsOn date dates) 0) as [_ | N0];
      [reflexivity|].
    elim Hnot. apply completionsOn_pos.
    pose proof (completionsOn_nonneg date dates). lia.
  - rewrite sumOfCounts_fold. unfold dates. rewrite length_map. simpl. lia.
Qed.

(** ** The order of the rows *)

Lemma filter_Permutation {A} (f : A -> bool) (l l' : list A) :
  Permutation l l' -> Permutation (filter f l) (filter f l').
Proof.
  induction 1 as [| x l l' _ IH | x y l | l l' l'' _ IH1 _ IH2]; simpl.
  - constructor.
  - destruct (f x); [now constructor | exact IH].
  - destruct (f x), (f y); try apply Permutation_refl. apply perm_swap.
  - now transitivity (filter f l').
Qed.

Lemma tasksUnder_Permutation db tasks' todolist :
  Permutation (taskTable db) tasks' ->
  Permutation (tasksUnder db todolist) (tasksUnder (withTasks db tasks') todolist).
Proof. intro H. unfold tasksUnder. now apply filter_Permutation. Qed.

Lemma completionDates_Permutation clk db tasks' todolist :
  Permutation (taskTable db) tasks' ->
  Permutation (completionDates clk db todolist)
              (completionDates clk (withTasks db tasks') todolist).
Proof.
  intro H. unfold completionDates, completedUnder.
  apply Permutation_map, filter_Permutation. now apply tasksUnder_Permutation.
Qed.

Lemma completionsOn_Permutation d l l' :
  Permutation l l' -> completionsOn d l = completionsOn d l'.
Proof.
  intro H. unfold completionsOn.
  now rewrite (proj1 (Permutation_count_occ string_dec l l') H d).
Qed.

(** The three counting operations do not depend on the order in which the
    task rows are stored or returned. *)
Theorem counts_ignore_row_order clk db user tasks' :
  Permutation (taskTable db) tasks' ->
  getTaskCount (withTasks db tasks') user = getTaskCount db user
  /\ getAvgTasksPerDay clk (withTasks db tasks') user = getAvgTasksPerDay clk db user
  /\ getTasksNotCompletedOnTime (withTasks db tasks') user
     = getTasksNotCompletedOnTime db user.
Proof.
  intro Hperm.
  destruct (getTodoListByUser db (User.id user)) as [todolist|] eqn:Hl.
  - assert (Hl' : getTodoListByUser (withTasks db tasks') (User.id user)
                  = Some todolist) by exact Hl.
    pose proof (tasksUnder_Permutation db tasks' todolist Hperm) as Hu.
    assert (Hn : length (tasksUnder (withTasks db tasks') todolist)
                 = length (tasksUnder db todolist))
      by (symmetry; now apply Permutation_length).
    assert (Hc : completedCount (withTasks db tasks') todolist
                 = completedCount db todolist).
    { unfold completedCount, completedUnder. f_equal. symmetry.
      now apply Permutation_length, filter_Permutation. }
    split; [|split].
    + rewrite (getTaskCount_with_list db user todolist Hl),
        (getTaskCount_with_list _ user todolist Hl'), Hc, Hn. reflexivity.
    + destruct (Z.eq_dec (Moment.diff_days clk (User.createdAt user)) 0)
        as [E0 | N0].
      * unfold getAvgTasksPerDay. rewrite Hl, Hl'. cbv zeta. now rewrite E0.
      * rewrite (getAvgTasksPerDay_quotient clk db user todolist Hl N0),
          (getAvgTasksPerDay_quotient clk _ user todolist Hl' N0), Hc.
        reflexivity.
    + rewrite (getTasksNotCompletedOnTime_with_list db user todolist Hl),
        (getTasksNotCompletedOnTime_with_list _ user todolist Hl').
      f_equal. symmetry. now apply Permutation_length, filter_Permutation.
  - unfold getTaskCount, getAvgTasksPerDay, getTasksNotCompletedOnTime.
    rewrite getTodoListByUser_withTasks, Hl. repeat split.
Qed.

Lemma counts_ignore_row_order_witness :
  getTaskCount (withTasks Sample.store [Sample.pending 10 Sample.jan1;
                                         Sample.done 10 Sample.jan2 Sample.jan1])
    Sample.alice
  = getTaskCount (withTasks Sample.store [Sample.done 10 Sample.jan2 Sample.jan1;
                                           Sample.pending 10 Sample.jan1])
      Sample.alice.
Proof.
  exact (proj1 (counts_ignore_row_order (Sample.utc Sample.jan2)
                  (withTasks Sample.store [Sample.done 10 Sample.jan2 Sample.jan1;
                                           Sample.pending 10 Sample.jan1])
                  Sample.alice
                  [Sample.pending 10 Sample.jan1;
                   Sample.done 10 Sample.jan2 Sample.jan1]
                  (perm_swap _ _ []))).
Defined.

(** What the loop returns on the grouping of a list of dates. *)
Lemma loop_result_none dates :
  fst (fold_left maxStep (fold_left bump dates []) (None, 0)) = None
  <-> dates = [].
Proof.
  split; [|now intros ->].
  intro Hnone. destruct dates as [|d0 rest]; [reflexivity|]. exfalso.
  destruct (maxLoop_spec (fold_left bump (d0 :: rest) []) None 0)
    as [[_ Hall] | (E1 & d & c & E2 & _ & Eres & _)].
  - pose proof (Hall _ (grouped_entry (d0 :: rest) d0 (or_introl eq_refl))) as Hle.
    simpl in Hle.
    assert (In d0 (d0 :: rest)) as Hin by now left.
    apply completionsOn_pos in Hin. lia.
  - rewrite Eres in Hnone. discriminate Hnone.
Qed.

Lemma loop_result_max dates d :
  fst (fold_left maxStep (fold_left bump dates []) (None, 0)) = Some d ->
  In d dates
  /\ forall d', completionsOn d' dates <= completionsOn d dates.
Proof.
  intro Hres.
  destruct (maxLoop_spec (fold_left bump dates []) None 0)
    as [[Efix _] | (E1 & d1 & c & E2 & EG & Eres & Hc & H1 & H2)].
  { rewrite Efix in Hres. discriminate Hres. }
  rewrite Eres in Hres. simpl in Hres. injection Hres as ->.
  assert (Hin : In (d, c) (fold_left bump dates []))
    by (rewrite EG; apply in_or_app; right; now left).
  destruct (grouped_value dates d c Hin) as [Ec Hpos].
  split; [apply completionsOn_pos; lia|].
  intro d'. rewrite <- Ec.
  destruct (Z.eq_dec (completionsOn d' dates) 0) as [E0 | N0]; [lia|].
  assert (Hd' : In d' dates).
  { apply completionsOn_pos. pose proof (completionsOn_nonneg d' dates). lia. }
  pose proof (grouped_entry dates d' Hd') as He.
  rewrite EG in He. apply in_app_or in He.
  destruct He as [He | [He | He]].
  - apply H1 in He. simpl in He. lia.
  - injection He as _ <-. lia.
  - apply H2 in He. exact He.
Qed.



(** Reordering the rows can change which of several tied dates is returned,
    but not whether a date is returned nor how many completions the
    returned date has. *)
Theorem row_order_keeps_maximum clk db user todolist tasks' :
  getTodoListByUser db (User.id user) = Some todolist ->
  Permutation (taskTable db) tasks' ->
  (getDateWithMostCompletedTasks clk db user = None
   <-> getDateWithMostCompletedTasks clk (withTasks db tasks') user = None)
  /\ forall d d',
       getDateWithMostCompletedTasks clk db user = Some d ->
       getDateWithMostCompletedTasks clk (withTasks db tasks') user = Some d' ->
       completionsOn d' (completionDates clk db todolist)
       = completionsOn d (completionDates clk db todolist).
Proof.
  intros Hl Hperm.
  assert (Hl' : getTodoListByUser (withTasks db tasks') (User.id user)
                = Some todolist) by exact Hl.
  rewrite (getDateWithMostCompletedTasks_unfold clk db user todolist Hl),
    (getDateWithMostCompletedTasks_unfold clk _ user todolist Hl').
  pose proof (completionDates_Permutation clk db tasks' todolist Hperm) as Hp.
  set (dates := completionDates clk db todolist) in *.
  set (dates' := completionDates clk (withTasks db tasks') todolist) in *.
  split.
  - rewrite !loop_result_none. split; intro E; rewrite E in Hp.
    + now apply Permutation_nil in Hp.
    + apply Permutation_sym in Hp. now apply Permutation_nil in Hp.
  - intros d d' Hd Hd'.
    destruct (loop_result_max dates d Hd) as [_ Hmax].
    destruct (loop_result_max dates' d' Hd') as [_ Hmax'].
    specialize (Hmax d'). specialize (Hmax' d).
    rewrite <- !(completionsOn_Permutation _ dates dates' Hp) in Hmax'. lia.
Qed.

(** The tie of two dates, read in the two row orders. *)
Lemma row_order_keeps_maximum_witness :
  getDateWithMostCompletedTasks (Sample.utc Sample.jan2) Sample.tie12 Sample.alice
  = Some "2024-01-01"%string
  /\ getDateWithMostCompletedTasks (Sample.utc Sample.jan2)
       (withTasks Sample.tie12 (taskTable Sample.tie21)) Sample.alice
     = Some "2024-01-02"%string
  /\ completionsOn "2024-01-02"
       (completionDates (Sample.utc Sample.jan2) Sample.tie12 (TodoList.mk 10 1))
     = completionsOn "2024-01-01"
         (completionDates (Sample.utc Sample.jan2) Sample.tie12 (TodoList.mk 10 1)).
Proof.
  split; [reflexivity|]. split; [reflexivity|].
  apply (proj2 (row_order_keeps_maximum (Sample.utc Sample.jan2)
                  Sample.tie12 Sample.alice (TodoList.mk 10 1)
                  (taskTable Sample.tie21) eq_refl
                  (perm_swap _ _ _)));
    reflexivity.
Defined.


(** ** The keys of the grouping are local calendar days *)

Lemma dayOfFields_fieldsOfDay day : dayOfFields (JSDate.fieldsOfDay day) = day.
Proof.
  unfold dayOfFields, JSDate.fieldsOfDay. cbv zeta.
  cbn [JSDate.fullYear JSDate.month JSDate.date].
  set (z := day + 719468).
  set (era := z / 146097).
  set (doe := z - era * 146097).
  assert (Hdoe : 0 <= doe < 146097)
    by (subst doe era; Z.div_mod_to_equations; lia).
  assert (Ez : day = era * 146097 + doe - 719468) by (subst doe z; lia).
  clearbody doe. clearbody era. clear z.
  set (yoe := (doe - doe / 1460 + doe / 36524 - doe / 146096) / 365).
  assert (Hyoe : 0 <= yoe <= 399) by (subst yoe; Z.div_mod_to_equations; lia).
  set (doy := doe - (365 * yoe + yoe / 4 - yoe / 100)).
  assert (Hdoy : 0 <= doy <= 365)
    by (subst doy yoe; Z.div_mod_to_equations; lia).
  assert (Edoe : doe = 365 * yoe + yoe / 4 - yoe / 100 + doy) by (subst doy; lia).
  clearbody doy. clearbody yoe.
  set (mp := (5 * doy + 2) / 153).
  assert (Hmp : 0 <= mp <= 11) by (subst mp; Z.div_mod_to_equations; lia).
  clearbody mp.
  set (m := if mp <? 10 then mp + 3 else mp - 9).
  assert (Hm : (mp < 10 /\ m = mp + 3) \/ (10 <= mp /\ m = mp - 9)).
  { subst m. destruct (Z.ltb_spec mp 10); lia. }
  clearbody m.
  replace (m - 1 + 1) with m by lia.
  assert (E1 : (if 2 <? m then m - 3 else m + 9) = mp).
  { destruct (Z.ltb_spec 2 m); lia. }
  rewrite E1.
  set (c := if m <=? 2 then 1 else 0).
  replace (yoe + era * 400 + c - c) with (yoe + era * 400) by lia.
  assert (E2 : (yoe + era * 400) / 400 = era) by (Z.div_mod_to_equations; lia).
  rewrite E2.
  replace (yoe + era * 400 - era * 400) with yoe by lia.
  lia.
Qed.

Lemma zeroFill_year_value y :
  0 <= y <= 9999 -> decimalValue 0 (MomentFormat.zeroFill y 4) = y.
Proof.
  intro H. apply Z.eqb_eq.
  apply (allBelow_spec (Z.to_nat 10000)
           (fun y => decimalValue 0 (MomentFormat.zeroFill y 4) =? y));
    [vm_compute; reflexivity | lia].
Qed.

Lemma zeroFill_two_value n :
  0 <= n <= 99 -> decimalValue 0 (MomentFormat.zeroFill n 2) = n.
Proof.
  intro H. apply Z.eqb_eq.
  apply (allBelow_spec (Z.to_nat 100)
           (fun n => decimalValue 0 (MomentFormat.zeroFill n 2) =? n));
    [vm_compute; reflexivity | lia].
Qed.

Lemma string_app_inj (a a' b b' : string) :
  String.length a = String.length a' ->
  (a ++ b)%string = (a' ++ b')%string -> a = a' /\ b = b'.
Proof.
  revert a'. induction a as [|x a IH]; intros [|x' a'] Hlen E;
    try discriminate Hlen.
  - now split.
  - simpl in E. injection E as -> E. simpl in Hlen.
    destruct (IH a' ltac:(lia) E) as [-> ->]. now split.
Qed.

Lemma hasDigits_length n s : hasDigits n s = true -> String.length s = n.
Proof.
  unfold hasDigits. intro H. apply andb_true_iff in H.
  now apply Nat.eqb_eq.
Qed.

(** Within four-digit years, equal texts come from the same local day. *)
Lemma format_same_text clk c c' :
  fourDigitYear clk (Some c) = true ->
  fourDigitYear clk (Some c') = true ->
  MomentFormat.format_YYYY_MM_DD clk (Some c')
  = MomentFormat.format_YYYY_MM_DD clk (Some c) ->
  localDay clk c' = localDay clk c.
Proof.
  unfold fourDigitYear, MomentFormat.format_YYYY_MM_DD, JSDate.localFields.
  fold (localDay clk c). fold (localDay clk c'). cbv zeta.
  intros Hy Hy' E.
  apply andb_true_iff in Hy, Hy'.
  destruct Hy as [H0 H9], Hy' as [H0' H9'].
  apply Z.leb_le in H0, H9, H0', H9'.
  destruct (fieldsOfDay_bounds (localDay clk c)) as [Hm Hd].
  destruct (fieldsOfDay_bounds (localDay clk c')) as [Hm' Hd'].
  rewrite <- (dayOfFields_fieldsOfDay (localDay clk c)),
    <- (dayOfFields_fieldsOfDay (localDay clk c')).
  set (f := JSDate.fieldsOfDay (localDay clk c)) in *.
  set (f' := JSDate.fieldsOfDay (localDay clk c')) in *.
  clearbody f f'.
  apply string_app_inj in E;
    [|rewrite !(hasDigits_length 4) by (apply zeroFill_year; lia); reflexivity].
  destruct E as [EY E].
  change ("-" ++ ?x)%string with (String "-" x) in E.
  injection E as E.
  apply string_app_inj in E;
    [|rewrite !(hasDigits_length 2) by (apply zeroFill_two; lia); reflexivity].
  destruct E as [EM E].
  injection E as ED.
  apply (f_equal (decimalValue 0)) in EY, EM, ED.
  rewrite !zeroFill_year_value in EY by lia.
  rewrite !zeroFill_two_value in EM, ED by lia.
  destruct f as [y m d], f' as [y' m' d'].
  cbn [JSDate.fullYear JSDate.month JSDate.date] in *.
  f_equal; f_equal; lia.
Qed.

Lemma completionsOn_local_day clk rows c :
  fourDigitYear clk (Some c) = true ->
  forallb (fun t => fourDigitYear clk (Task.completionDateTime t)) rows = true ->
  completionsOn (MomentFormat.format_YYYY_MM_DD clk (Some c))
    (map (fun t => MomentFormat.format_YYYY_MM_DD clk (Task.completionDateTime t))
         rows)
  = completedOnDayOf clk rows c.
Proof.
  intros Hc. unfold completedOnDayOf.
  induction rows as [|t rows IH]; intro Hall; [reflexivity|].
  cbn [forallb] in Hall. apply andb_true_iff in Hall. destruct Hall as [Ht Hrest].
  cbn [map filter]. rewrite completionsOn_cons, (IH Hrest).
  destruct (Task.completionDateTime t) as [c'|]; [|discriminate Ht].
  destruct (String.eqb_spec (MomentFormat.format_YYYY_MM_DD clk (Some c'))
                            (MomentFormat.format_YYYY_MM_DD clk (Some c)))
    as [E | N].
  - rewrite (format_same_text clk c c' Hc Ht E), Z.eqb_refl. simpl length. lia.
  - destruct (Z.eqb_spec (localDay clk c') (localDay clk c)) as [Eday | _];
      [|lia].
    elim N. now apply format_same_day.
Qed.

(** When every row has a completion instant with a four-digit local year,
    the count that [tasksByDate] holds under the date of a row is the number
    of rows completed on the same local calendar day: rows of different
    days never share a key, rows of one day always do. *)
Theorem tasksByDate_counts_local_days clk (rows : list Task.t) t c :
  forallb (fun t => fourDigitYear clk (Task.completionDateTime t)) rows = true ->
  In t rows ->
  Task.completionDateTime t = Some c ->
  JsObject.get (fold_left (groupStep clk) (map Task.completionDateTime rows) [])
               (MomentFormat.format_YYYY_MM_DD clk (Some c))
  = Some (completedOnDayOf clk rows c)
  /\ 0 < completedOnDayOf clk rows c.
Proof.
  intros Hall Hin Hc.
  assert (Hyc : fourDigitYear clk (Some c) = true).
  { rewrite forallb_forall in Hall. rewrite <- Hc. now apply Hall. }
  rewrite groupStep_bump, map_map, get_fold. cbn [JsObject.get].
  rewrite (completionsOn_local_day clk rows c Hyc Hall).
  assert (Hpos : 0 < completedOnDayOf clk rows c).
  { rewrite <- (completionsOn_local_day clk rows c Hyc Hall).
    apply completionsOn_pos. apply in_map_iff. exists t. now rewrite Hc. }
  split; [|exact Hpos].
  destruct (Z.eqb_spec (completedOnDayOf clk rows c) 0); [lia|].
  reflexivity.
Qed.

Lemma tasksByDate_counts_local_days_witness :
  JsObject.get
    (fold_left (groupStep (Sample.utc Sample.jan2))
       (map Task.completionDateTime (completedUnder Sample.fiveDone (TodoList.mk 10 1)))
       [])
    (MomentFormat.format_YYYY_MM_DD (Sample.utc Sample.jan2) (Some (Sample.jan2 + 10)))
  = Some 3.
Proof.
  exact (proj1 (tasksByDate_counts_local_days (Sample.utc Sample.jan2)
                  (completedUnder Sample.fiveDone (TodoList.mk 10 1))
                  (Sample.done 10 (Sample.jan2 + 10) Sample.jan1)
                  (Sample.jan2 + 10)
                  eq_refl (or_intror (or_introl eq_refl)) eq_refl)).
Defined.

(** When every completed task under the list has a completion instant with
    a four-digit local year, the date that
    [getDateWithMostCompletedTasks] returns is the local calendar day of a
    completed task of the list, and no completed task of the list lies on a
    local day with more completions. *)
Theorem most_completions_on_a_local_day clk db user todolist d :
  getTodoListByUser db (User.id user) = Some todolist ->
  forallb (fun t => fourDigitYear clk (Task.completionDateTime t))
          (completedUnder db todolist) = true ->
  getDateWithMostCompletedTasks clk db user = Some d ->
  exists t c,
    In t (completedUnder db todolist)
    /\ Task.completionDateTime t = Some c
    /\ d = MomentFormat.format_YYYY_MM_DD clk (Some c)
    /\ forall t' c',
         In t' (completedUnder db todolist) ->
         Task.completionDateTime t' = Some c' ->
         completedOnDayOf clk (completedUnder db todolist) c'
         <= completedOnDayOf clk (completedUnder db todolist) c.
Proof.
  intros Hl Hall Hres.
  rewrite (getDateWithMostCompletedTasks_unfold clk db user todolist Hl) in Hres.
  destruct (loop_result_max _ d Hres) as [Hin Hmax].
  unfold completionDates in Hin. apply in_map_iff in Hin.
  destruct Hin as (t & Et & Ht).
  pose proof Hall as Hall'. rewrite forallb_forall in Hall'.
  pose proof (Hall' t Ht) as Hyt.
  destruct (Task.completionDateTime t) as [c|] eqn:Ec; [|discriminate Hyt].
  exists t, c. split; [exact Ht|]. split; [exact Ec|].
  split; [now symmetry|].
  intros t' c' Ht' Ec'.
  assert (Hyc' : fourDigitYear clk (Some c') = true)
    by (rewrite <- Ec'; now apply Hall').
  specialize (Hmax (MomentFormat.format_YYYY_MM_DD clk (Some c'))).
  rewrite <- Et in Hmax. unfold completionDates in Hmax.
  now rewrite !completionsOn_local_day in Hmax by assumption.
Qed.

Lemma most_completions_on_a_local_day_witness :
  exists t c,
    In t (completedUnder Sample.fiveDone (TodoList.mk 10 1))
    /\ Task.completionDateTime t = Some c
    /\ "2024-01-02"%string
       = MomentFormat.format_YYYY_MM_DD (Sample.utc Sample.jan2) (Some c)
    /\ forall t' c',
         In t' (completedUnder Sample.fiveDone (TodoList.mk 10 1)) ->
         Task.completionDateTime t' = Some c' ->
         completedOnDayOf (Sample.utc Sample.jan2)
           (completedUnder Sample.fiveDone (TodoList.mk 10 1)) c'
         <= completedOnDayOf (Sample.utc Sample.jan2)
              (completedUnder Sample.fiveDone (TodoList.mk 10 1)) c.
Proof.
  apply (most_completions_on_a_local_day (Sample.utc Sample.jan2)
           Sample.fiveDone Sample.alice (TodoList.mk 10 1) "2024-01-02"%string);
    reflexivity.
Defined.

(** ** The lookup of the user's list *)


(** ** More on the counts *)

Lemma filter_split_length {A} (f : A -> bool) (l : list A) :
  (length (filter f l) + length (filter (fun x => negb (f x)) l) = length l)%nat.
Proof.
  induction l as [|x l IH]; simpl; [reflexivity|].
  destruct (f x); simpl; lia.
Qed.

(** [remainingTasks], obtained by subtraction, is the number of tasks under
    the list whose [completionStatus] is false. *)
Theorem remainingTasks_counts_incomplete db user todolist :
  getTodoListByUser db (User.id user) = Some todolist ->
  remainingTasks (getTaskCount db user)
  = Z.of_nat (length (filter (fun t => negb (Task.completionStatus t))
                             (tasksUnder db todolist))).
Proof.
  intro Hl. rewrite (getTaskCount_with_list db user todolist Hl).
  cbn [remainingTasks]. unfold completedCount, completedUnder.
  pose proof (filter_split_length Task.completionStatus (tasksUnder db todolist)).
  lia.
Qed.

Lemma remainingTasks_counts_incomplete_witness :
  remainingTasks (getTaskCount Sample.store Sample.alice) = 1.
Proof.
  exact (remainingTasks_counts_incomplete Sample.store Sample.alice
           (TodoList.mk 10 1) eq_refl).
Defined.

